(** * Hotel booking backend (app.py): transactional model of the three
      request handlers [add_booking], [get_room_availability] and
      [cancel_booking].

    The handlers are embedded as functions from the committed database to
    the committed database after the request, the HTTP response and the
    sequence of driver calls made on the connection.  The database engine,
    the driver and the clock are outside the program; one [world] value
    fixes what they do during one request (whether the connection opens,
    which statements raise [mysql.connector.Error], what NOW() returns). *)

From stdpp Require Import base strings gmap list sorting pretty.

Local Open Scope string_scope.
Local Open Scope Z_scope.
Local Open Scope list_scope.

(** ** Python values carried through the handlers

    The handlers never compute with the request fields: they bind them as
    statement parameters and format one of them into a message.  A float,
    list or dict is kept as the text [str()] gives for it. *)
Inductive pyval :=
  | PNone
  | PBool (b : bool)
  | PInt (z : Z)
  | PStr (s : string)
  | POther (text : string).

#[global] Instance pyval_eq_dec : EqDecision pyval.
Proof. solve_decision. Defined.

(** [f"{v}"] *)
Definition py_str (v : pyval) : string :=
  match v with
  | PNone => "None"
  | PBool true => "True"
  | PBool false => "False"
  | PInt z => pretty z
  | PStr s => s
  | POther text => text
  end.

(** [data.get(key)]: the value, or None when the key is absent. *)
Definition get (data : gmap string pyval) (key : string) : pyval :=
  default PNone (data !! key).

(** ** Relations of the schema (spec section 3)

    A Booking row keeps the values as they were bound to the INSERT; the
    conversion the engine applies to a column (True stored as 1, a numeric
    string as a number) is not modelled. *)
Record booking_row := {
  BookingID : Z;
  CustomerID : pyval;
  bk_RoomNumber : pyval;
  CheckInDate : pyval;
  CheckOutDate : pyval;
  TotalCost : pyval;
  BookingDate : Z
}.

Record room_row := {
  RoomNumber : Z;
  RoomTypeID : Z;
  Status : string
}.

Record roomtype_row := {
  rt_RoomTypeID : Z;
  TypeName : string;
  Rate : pyval
}.

Record customer_row := {
  cu_CustomerID : Z
}.

Record tables := {
  Booking : list booking_row;
  Room : list room_row;
  RoomType : list roomtype_row;
  Customer : list customer_row
}.

(** The committed database: the four relations and the AUTO_INCREMENT
    counter of Booking.BookingID.  The counter is not transactional: an
    insert that is rolled back still consumes its value. *)
Record db := {
  rows_of : tables;
  auto_increment : Z
}.

(** ** Statements issued by the handlers *)
Inductive stmt :=
  | INSERT_Booking (customer_id room_number check_in check_out total_cost : pyval)
  | UPDATE_Room_Status (status : string) (room_number : pyval)
  | SELECT_Rooms
  | SELECT_Booking_RoomNumber (booking_id : Z)
  | DELETE_Booking (booking_id : Z).

(** A fetched row: column name and value, in SELECT order.  A tuple cursor
    reads it by position, a dictionary cursor by name. *)
Definition row := list (string * pyval).

Record cursor := {
  lastrowid : Z;
  fetched : list row
}.

Definition fetchall (cur : cursor) : list row := fetched cur.
Definition fetchone (cur : cursor) : option row := head (fetched cur).

(** ** The outside world during one request *)
Inductive fault :=
  | NoFault
  | RaiseBefore (err : string)   (* rejected: the statement has no effect *)
  | RaiseAfter (err : string).   (* applied, then a warning is raised
                                    (DB_CONFIG sets raise_on_warnings) *)

Record world := {
  connect_error : option string;
  now : Z;
  stmt_fault : stmt → fault;
  commit_error : option string;
  rollback_error : option string
}.

(** The error a statement raises, if any. *)
Definition raises (f : fault) : option string :=
  match f with
  | NoFault => None
  | RaiseBefore err | RaiseAfter err => Some err
  end.

(** Calls made on the driver, in order. *)
Inductive event :=
  | Connect
  | Execute (s : stmt)
  | Commit
  | Rollback
  | CursorClose
  | ConnClose.

(** An open connection: the committed relations, the relations as the
    running transaction sees them, the AUTO_INCREMENT counter, and the
    calls made so far. *)
Record conn := {
  committed : tables;
  working : tables;
  counter : Z;
  trace : list event
}.

Inductive outcome (A : Type) :=
  | Returned (a : A)
  | Raised (err : string).
Arguments Returned {A} a.
Arguments Raised {A} err.

(** Code running inside [try:] on an open connection. *)
Definition tx (A : Type) : Type := conn → conn * outcome A.

#[global] Instance tx_ret : MRet tx := λ A a c, (c, Returned a).

(** Sequencing: a raised error skips the rest of the block. *)
#[global] Instance tx_bind : MBind tx := λ A B k m c,
  match m c with
  | (c', Returned a) => k a c'
  | (c', Raised err) => (c', Raised err)
  end.

Definition logged (e : event) (c : conn) : conn :=
  {| committed := committed c; working := working c;
     counter := counter c; trace := trace c ++ [e] |}.

(** Response bodies: [jsonify] of a dict or of a list of row dicts, and the
    error page Flask itself sends when an exception leaves a handler. *)
Inductive payload :=
  | Dict (items : list (string * pyval))
  | List (rows : list row)
  | ErrorPage.

Definition jsonify (p : payload) : payload := p.

Definition response : Type := payload * Z.

Record result := {
  final : db;
  reply : response;
  calls : list event
}.

Section Engine.

(** [where_eq k p]: the engine's verdict on [WHERE RoomNumber = %s] for a
    row whose RoomNumber is [k] and a bound parameter [p].  The coercion
    rules are the engine's; the handlers do not depend on them. *)
Variable where_eq : Z → pyval → bool.

Definition set_status (status : string) (r : room_row) : room_row :=
  {| RoomNumber := RoomNumber r; RoomTypeID := RoomTypeID r; Status := status |}.

(** UPDATE Room SET Status = status WHERE RoomNumber = room_number *)
Definition update_status (status : string) (room_number : pyval)
    (rs : list room_row) : list room_row :=
  (λ r, if where_eq (RoomNumber r) room_number then set_status status r else r)
    <$> rs.

Definition with_Booking (t : tables) (bs : list booking_row) : tables :=
  {| Booking := bs; Room := Room t; RoomType := RoomType t; Customer := Customer t |}.

Definition with_Room (t : tables) (rs : list room_row) : tables :=
  {| Booking := Booking t; Room := rs; RoomType := RoomType t; Customer := Customer t |}.

(** SELECT r.RoomNumber, rt.TypeName AS RoomType, rt.Rate, r.Status
    FROM Room r JOIN RoomType rt ON r.RoomTypeID = rt.RoomTypeID *)
Definition join_rooms (t : tables) : list (room_row * roomtype_row) :=
  r ← Room t;
  rt ← filter (λ rt, rt_RoomTypeID rt = RoomTypeID r) (RoomType t);
  [(r, rt)].

Definition room_dict (p : room_row * roomtype_row) : row :=
  [("RoomNumber", PInt (RoomNumber p.1));
   ("RoomType", PStr (TypeName p.2));
   ("Rate", Rate p.2);
   ("Status", PStr (Status p.1))].

(** ORDER BY r.RoomNumber *)
Definition by_RoomNumber (p q : room_row * roomtype_row) : Prop :=
  RoomNumber p.1 ≤ RoomNumber q.1.

#[global] Instance by_RoomNumber_dec : RelDecision by_RoomNumber.
Proof. intros p q. unfold by_RoomNumber. apply _. Defined.

Definition no_cursor : cursor := {| lastrowid := 0; fetched := [] |}.

(** What a statement does to the relations the transaction sees, to the
    AUTO_INCREMENT counter, and what the cursor holds afterwards. *)
Definition run (time : Z) (s : stmt) (t : tables) (ctr : Z) : tables * Z * cursor :=
  match s with
  | INSERT_Booking customer_id room_number check_in check_out total_cost =>
      let b := {| BookingID := ctr; CustomerID := customer_id;
                  bk_RoomNumber := room_number; CheckInDate := check_in;
                  CheckOutDate := check_out; TotalCost := total_cost;
                  BookingDate := time |} in
      (with_Booking t (Booking t ++ [b]), ctr + 1,
       {| lastrowid := ctr; fetched := [] |})
  | UPDATE_Room_Status status room_number =>
      (with_Room t (update_status status room_number (Room t)), ctr, no_cursor)
  | SELECT_Rooms =>
      (t, ctr,
       {| lastrowid := 0;
          fetched := room_dict <$> merge_sort by_RoomNumber (join_rooms t) |})
  | SELECT_Booking_RoomNumber booking_id =>
      (t, ctr,
       {| lastrowid := 0;
          fetched := (λ b, [("RoomNumber", bk_RoomNumber b)]) <$>
                       filter (λ b, BookingID b = booking_id) (Booking t) |})
  | DELETE_Booking booking_id =>
      (with_Booking t (filter (λ b, BookingID b ≠ booking_id) (Booking t)),
       ctr, no_cursor)
  end.

(** [mysql.connector.connect] with DB_CONFIG: the connection, or None when
    connecting raised (the error is printed and swallowed). *)
Definition get_db_connection (w : world) (d : db) : option conn :=
  match connect_error w with
  | Some _ => None
  | None => Some {| committed := rows_of d; working := rows_of d;
                    counter := auto_increment d; trace := [Connect] |}
  end.

(** [cursor.execute(sql, params)] *)
Definition execute (w : world) (s : stmt) : tx cursor := λ c,
  let c := logged (Execute s) c in
  let '(t', ctr', cur) := run (now w) s (working c) (counter c) in
  let applied := {| committed := committed c; working := t';
                    counter := ctr'; trace := trace c |} in
  match stmt_fault w s with
  | NoFault => (applied, Returned cur)
  | RaiseBefore err => (c, Raised err)
  | RaiseAfter err => (applied, Raised err)
  end.

(** [conn.commit()] *)
Definition commit (w : world) : tx unit := λ c,
  let c := logged Commit c in
  match commit_error w with
  | None => ({| committed := working c; working := working c;
                counter := counter c; trace := trace c |}, Returned ())
  | Some err => (c, Raised err)
  end.

(** [conn.rollback()]; like any call on the connection it can raise, for
    instance when the connection was lost. *)
Definition rollback (w : world) : tx unit := λ c,
  let c := logged Rollback c in
  match rollback_error w with
  | None => ({| committed := committed c; working := committed c;
                counter := counter c; trace := trace c |}, Returned ())
  | Some err => (c, Raised err)
  end.

(** An exception that leaves the handler: Flask answers 500 with its own
    error page. *)
Definition unhandled : response := (ErrorPage, 500).

(** [finally: cursor.close(); conn.close()]: what was not committed is
    dropped with the connection. *)
Definition finally (c : conn) (r : response) : result :=
  {| final := {| rows_of := committed c; auto_increment := counter c |};
     reply := r;
     calls := trace c ++ [CursorClose; ConnClose] |}.

Definition connection_failed (d : db) : result :=
  {| final := d;
     reply := (jsonify (Dict [("error", PStr "Database connection failed")]), 500);
     calls := [Connect] |}.

(** POST /api/bookings.  [data] is [request.json] once Flask has parsed the
    body to a JSON object; a request Flask turns away before that, or whose
    body is not an object, never reaches the code below. *)
Definition add_booking (w : world) (data : gmap string pyval) (d : db) : result :=
  let guest_name := get data "guestName" in
  let room_number := get data "roomNumber" in
  let check_in := get data "checkInDate" in
  let check_out := get data "checkOutDate" in
  let total_cost := get data "totalCost" in
  match get_db_connection w d with
  | None => connection_failed d
  | Some conn =>
      let try_block : tx response :=
        let customer_id := get data "customerId" in
        cur ← execute w (INSERT_Booking customer_id room_number
                             check_in check_out total_cost);
        let booking_id := lastrowid cur in
        _ ← execute w (UPDATE_Room_Status "Occupied" room_number);
        _ ← commit w;
        mret (jsonify (Dict [("message", PStr "Booking successful");
                               ("bookingId", PInt booking_id)]), 201)
      in
      match try_block conn with
      | (conn, Returned r) => finally conn r
      | (conn, Raised err) =>
          match rollback w conn with
          | (conn, Returned _) =>
              finally conn
                (jsonify (Dict [("error", PStr "Failed to process booking");
                                ("details", PStr err)]), 400)
          | (conn, Raised _) => finally conn unhandled
          end
      end
  end.

(** GET /api/rooms *)
Definition get_room_availability (w : world) (d : db) : result :=
  match get_db_connection w d with
  | None => connection_failed d
  | Some conn =>
      let try_block : tx response :=
        cur ← execute w SELECT_Rooms;
        let rooms := fetchall cur in
        mret (jsonify (List rooms), 200)
      in
      match try_block conn with
      | (conn, Returned r) => finally conn r
      | (conn, Raised err) =>
          finally conn
            (jsonify (Dict [("error", PStr "Failed to fetch rooms");
                            ("details", PStr err)]), 500)
      end
  end.

(** DELETE /api/bookings/<int:booking_id> *)
Definition cancel_booking (w : world) (booking_id : Z) (d : db) : result :=
  match get_db_connection w d with
  | None => connection_failed d
  | Some conn =>
      let try_block : tx response :=
        cur ← execute w (SELECT_Booking_RoomNumber booking_id);
        match fetchone cur with
        | None | Some [] =>
            mret (jsonify (Dict [("error", PStr "Booking not found")]), 404)
        | Some ((_, room_number) :: _) =>
            _ ← execute w (DELETE_Booking booking_id);
            _ ← execute w (UPDATE_Room_Status "Vacant" room_number);
            _ ← commit w;
            mret (jsonify (Dict [("message",
                      PStr ("Booking " +:+ pretty booking_id +:+
                            " cancelled successfully. Room " +:+
                            py_str room_number +:+ " is now Vacant."))]), 200)
        end
      in
      match try_block conn with
      | (conn, Returned r) => finally conn r
      | (conn, Raised err) =>
          match rollback w conn with
          | (conn, Returned _) =>
              finally conn
                (jsonify (Dict [("error", PStr "Failed to cancel booking");
                                ("details", PStr err)]), 400)
          | (conn, Raised _) => finally conn unhandled
          end
      end
  end.

End Engine.

(** ** The statements a request gives rise to *)

(** The INSERT of [add_booking] for a request body. *)
Definition insert_of (data : gmap string pyval) : stmt :=
  INSERT_Booking (get data "customerId") (get data "roomNumber")
    (get data "checkInDate") (get data "checkOutDate") (get data "totalCost").

(** The UPDATE of [add_booking] for a request body. *)
Definition occupy_of (data : gmap string pyval) : stmt :=
  UPDATE_Room_Status "Occupied" (get data "roomNumber").

(** The Booking row [add_booking] inserts into database [d] at time [time]. *)
Definition new_booking (time : Z) (data : gmap string pyval) (d : db) : booking_row :=
  {| BookingID := auto_increment d;
     CustomerID := get data "customerId";
     bk_RoomNumber := get data "roomNumber";
     CheckInDate := get data "checkInDate";
     CheckOutDate := get data "checkOutDate";
     TotalCost := get data "totalCost";
     BookingDate := time |}.

(** The first Booking row with a given BookingID, as [fetchone] sees it. *)
Definition find_booking (booking_id : Z) (d : db) : option booking_row :=
  head (filter (λ b, BookingID b = booking_id) (Booking (rows_of d))).

(** The error raised inside the try block of [add_booking], if any: the
    first of INSERT, UPDATE and commit to raise. *)
Definition add_booking_raised (w : world) (data : gmap string pyval) : option string :=
  match raises (stmt_fault w (insert_of data)) with
  | Some err => Some err
  | None =>
      match raises (stmt_fault w (occupy_of data)) with
      | Some err => Some err
      | None => commit_error w
      end
  end.

(** The error raised inside the try block of [cancel_booking], if any: the
    lookup, or, when it found a Booking row, the first of DELETE, UPDATE
    and commit to raise. *)
Definition cancel_booking_raised (w : world) (booking_id : Z) (d : db) : option string :=
  match raises (stmt_fault w (SELECT_Booking_RoomNumber booking_id)) with
  | Some err => Some err
  | None =>
      match find_booking booking_id d with
      | None => None
      | Some b =>
          match raises (stmt_fault w (DELETE_Booking booking_id)) with
          | Some err => Some err
          | None =>
              match raises (stmt_fault w (UPDATE_Room_Status "Vacant" (bk_RoomNumber b))) with
              | Some err => Some err
              | None => commit_error w
              end
          end
      end
  end.

(** The f-string of a successful [cancel_booking]. *)
Definition cancelled_message (booking_id : Z) (room_number : pyval) : string :=
  "Booking " +:+ pretty booking_id +:+ " cancelled successfully. Room " +:+
  py_str room_number +:+ " is now Vacant.".

(** A room listing shows status [st] for room number [n]. *)
Definition shows (rooms : list row) (n : Z) (st : string) : Prop :=
  ∃ ty rate, [("RoomNumber", PInt n); ("RoomType", ty);
              ("Rate", rate); ("Status", PStr st)] ∈ rooms.

(** The data model's key and reference constraints on Room and RoomType:
    RoomTypeID identifies a RoomType, and every Room refers to one. *)
Definition roomtype_keys (t : tables) : Prop :=
  NoDup (rt_RoomTypeID <$> RoomType t) ∧
  ∀ r, r ∈ Room t → RoomTypeID r ∈ rt_RoomTypeID <$> RoomType t.

(** ** Sample engine, worlds and data (spec section 8) *)

(** An engine on which an integer parameter matches the equal room number. *)
Definition exact_int (k : Z) (p : pyval) : bool :=
  match p with
  | PInt z => bool_decide (z = k)
  | _ => false
  end.

(** Every call goes through. *)
Definition quiet : world :=
  {| connect_error := None; now := 1717236000;
     stmt_fault := λ _, NoFault; commit_error := None; rollback_error := None |}.

(** The database cannot be reached. *)
Definition offline : world :=
  {| connect_error := Some "2003 (HY000): Can't connect to MySQL server";
     now := 1717236000; stmt_fault := λ _, NoFault; commit_error := None; rollback_error := None |}.

(** The room status update is applied and then raises. *)
Definition update_fails : world :=
  {| connect_error := None; now := 1717236000;
     stmt_fault := λ s, match s with
                       | UPDATE_Room_Status _ _ =>
                           RaiseAfter "1205 (HY000): Lock wait timeout exceeded"
                       | _ => NoFault
                       end;
     commit_error := None; rollback_error := None |}.

(** The room query raises. *)
Definition select_fails : world :=
  {| connect_error := None; now := 1717236000;
     stmt_fault := λ s, match s with
                       | SELECT_Rooms =>
                           RaiseBefore "2013 (HY000): Lost connection to MySQL server during query"
                       | _ => NoFault
                       end;
     commit_error := None; rollback_error := None |}.

(** The five request keys [add_booking] binds as statement parameters. *)
Definition bound_keys : list string :=
  ["roomNumber"; "checkInDate"; "checkOutDate"; "totalCost"; "customerId"].

(** How a handler may change one Room row: number and type stay, the
    status stays or becomes [status]. *)
Definition status_step (status : string) (r0 r1 : room_row) : Prop :=
  RoomNumber r1 = RoomNumber r0 ∧ RoomTypeID r1 = RoomTypeID r0 ∧
  (Status r1 = Status r0 ∨ Status r1 = status).

(** RoomNumber identifies a Room. *)
Definition room_keys (t : tables) : Prop :=
  NoDup (RoomNumber <$> Room t).

(** The connection is lost while the room status is updated: the update
    raises, and so does the rollback that follows. *)
Definition connection_lost : world :=
  {| connect_error := None; now := 1717236000;
     stmt_fault := λ s, match s with
                       | UPDATE_Room_Status _ _ =>
                           RaiseBefore "2013 (HY000): Lost connection to MySQL server during query"
                       | _ => NoFault
                       end;
     commit_error := None;
     rollback_error := Some "MySQL Connection not available." |}.

Definition single : roomtype_row :=
  {| rt_RoomTypeID := 1; TypeName := "Single"; Rate := POther "120.00" |}.
Definition double : roomtype_row :=
  {| rt_RoomTypeID := 2; TypeName := "Double"; Rate := POther "180.00" |}.

Definition hotel : db :=
  {| rows_of :=
       {| Booking := [];
          Room := [ {| RoomNumber := 102; RoomTypeID := 2; Status := "Vacant" |};
                    {| RoomNumber := 101; RoomTypeID := 1; Status := "Vacant" |} ];
          RoomType := [single; double];
          Customer := [ {| cu_CustomerID := 7 |} ] |};
     auto_increment := 1 |}.

(** [hotel] with the Room and RoomType rows held in the other order. *)
Definition hotel_reordered : db :=
  {| rows_of :=
       {| Booking := [];
          Room := [ {| RoomNumber := 101; RoomTypeID := 1; Status := "Vacant" |};
                    {| RoomNumber := 102; RoomTypeID := 2; Status := "Vacant" |} ];
          RoomType := [double; single];
          Customer := [ {| cu_CustomerID := 7 |} ] |};
     auto_increment := 1 |}.

Definition lee_request : gmap string pyval :=
  list_to_map [("guestName", PStr "A. Lee"); ("roomNumber", PInt 101);
               ("checkInDate", PStr "2024-06-01");
               ("checkOutDate", PStr "2024-06-03");
               ("totalCost", POther "250.0"); ("customerId", PInt 7)].

Definition kim_request : gmap string pyval :=
  list_to_map [("guestName", PStr "B. Kim"); ("roomNumber", PInt 101);
               ("checkInDate", PStr "2024-06-01");
               ("checkOutDate", PStr "2024-06-03");
               ("totalCost", POther "250.0"); ("customerId", PInt 7)].

(** [hotel] after A. Lee's booking of room 101. *)
Definition booked : db := final (add_booking exact_int quiet lee_request hotel).

(** Room 101 booked twice: [booked] after a second booking of the room. *)
Definition double_booked : db :=
  final (add_booking exact_int quiet kim_request booked).

(** * The worked example of spec section 8 *)

Example booking_101 :
  reply (add_booking exact_int quiet lee_request hotel)
    = (Dict [("message", PStr "Booking successful"); ("bookingId", PInt 1)], 201).
Proof. reflexivity. Qed.

Example rooms_after_booking :
  reply (get_room_availability exact_int quiet booked)
    = (List [[("RoomNumber", PInt 101); ("RoomType", PStr "Single");
              ("Rate", POther "120.00"); ("Status", PStr "Occupied")];
             [("RoomNumber", PInt 102); ("RoomType", PStr "Double");
              ("Rate", POther "180.00"); ("Status", PStr "Vacant")]], 200).
Proof. reflexivity. Qed.

Example cancelling_1 :
  reply (cancel_booking exact_int quiet 1 booked)
    = (Dict [("message",
         PStr "Booking 1 cancelled successfully. Room 101 is now Vacant.")], 200).
Proof. reflexivity. Qed.

Example rooms_after_cancelling :
  reply (get_room_availability exact_int quiet
           (final (cancel_booking exact_int quiet 1 booked)))
    = (List [[("RoomNumber", PInt 101); ("RoomType", PStr "Single");
              ("Rate", POther "120.00"); ("Status", PStr "Vacant")];
             [("RoomNumber", PInt 102); ("RoomType", PStr "Double");
              ("Rate", POther "180.00"); ("Status", PStr "Vacant")]], 200).
Proof. reflexivity. Qed.

(** The update fails after the insert was applied: nothing of the
    transaction is kept, only the AUTO_INCREMENT value is used up. *)
Example update_failure :
  add_booking exact_int update_fails lee_request hotel
    = {| final := {| rows_of := rows_of hotel; auto_increment := 2 |};
         reply := (Dict [("error", PStr "Failed to process booking");
                         ("details",
                          PStr "1205 (HY000): Lock wait timeout exceeded")], 400);
         calls := [Connect; Execute (insert_of lee_request);
                   Execute (occupy_of lee_request);
                   Rollback; CursorClose; ConnClose] |}.
Proof. reflexivity. Qed.

Example unreachable_database :
  cancel_booking exact_int offline 1 booked
    = {| final := booked;
         reply := (Dict [("error", PStr "Database connection failed")], 500);
         calls := [Connect] |}.
Proof. reflexivity. Qed.

(** * Facts about the engine model *)

Ltac run_handler :=
  cbv [add_booking get_room_availability cancel_booking get_db_connection
       mbind tx_bind mret tx_ret execute commit rollback finally logged
       connection_failed unhandled jsonify fetchall fetchone insert_of
       occupy_of new_booking find_booking cancelled_message] in *.

(** Whether the rollback of the except block goes through. *)
Ltac rollback_cases w :=
  destruct (rollback_error w) as [rerr|] eqn:Er; cbn in *.

(** Case analysis on everything the world can do during one call. *)
Ltac add_cases w :=
  run_handler;
  destruct (rollback_error w) as [rerr|] eqn:Er; try rewrite Er in *;
  (destruct (connect_error w) as [cerr|] eqn:Ec; cbn in *;
   [|destruct (stmt_fault w (INSERT_Booking _ _ _ _ _)) eqn:Ei; cbn in *;
       [destruct (stmt_fault w (UPDATE_Room_Status _ _)) eqn:Eu; cbn in *;
          [destruct (commit_error w) as [kerr|] eqn:Ek; cbn in *|..]|..]]).

Ltac cancel_cases w d :=
  run_handler;
  destruct (rollback_error w) as [rerr|] eqn:Er; try rewrite Er in *;
  (destruct (connect_error w) as [cerr|] eqn:Ec; cbn in *;
   [|destruct (stmt_fault w (SELECT_Booking_RoomNumber _)) eqn:Es; cbn in *;
       [destruct (filter _ (Booking (rows_of d))) as [|b bs] eqn:Ef; cbn in *;
          [|destruct (stmt_fault w (DELETE_Booking _)) eqn:Ed; cbn in *;
              [destruct (stmt_fault w (UPDATE_Room_Status _ _)) eqn:Eu; cbn in *;
                 [destruct (commit_error w) as [kerr|] eqn:Ek; cbn in *|..]|..]]|..]]).

(** Membership in an explicit list of driver calls. *)
Ltac list_mem :=
  rewrite ?elem_of_cons, ?elem_of_nil;
  intuition (try discriminate; try congruence).

Lemma update_status_matching where_eq status p rs rm :
  rm ∈ update_status where_eq status p rs →
  where_eq (RoomNumber rm) p = true →
  Status rm = status.
Proof.
  unfold update_status. intros [r [-> Hr]]%list_elem_of_fmap.
  destruct (where_eq (RoomNumber r) p) eqn:E; cbn; [done | congruence].
Qed.

Lemma update_status_other where_eq status p rs rm :
  rm ∈ rs → where_eq (RoomNumber rm) p = false →
  rm ∈ update_status where_eq status p rs.
Proof.
  intros Hin Hne. unfold update_status. apply list_elem_of_fmap.
  exists rm. by rewrite Hne.
Qed.

Lemma join_rooms_elem t r rt :
  (r, rt) ∈ join_rooms t ↔
  r ∈ Room t ∧ rt ∈ RoomType t ∧ rt_RoomTypeID rt = RoomTypeID r.
Proof.
  unfold join_rooms. rewrite list_elem_of_bind. split.
  - intros (r' & (rt' & Hp & Hrt)%list_elem_of_bind & Hr).
    apply list_elem_of_singleton in Hp as [= -> ->].
    apply list_elem_of_filter in Hrt as [? ?]. done.
  - intros (Hr & Hrt & Hid). exists r. split; [|done].
    apply list_elem_of_bind. exists rt. split; [apply list_elem_of_singleton; done|].
    apply list_elem_of_filter. done.
Qed.

(** An entry of the listing comes from a Room row with that number and
    status. *)
Lemma listed_room t n st :
  shows (room_dict <$> merge_sort by_RoomNumber (join_rooms t)) n st →
  ∃ rm, rm ∈ Room t ∧ RoomNumber rm = n ∧ Status rm = st.
Proof.
  intros (ty & rate & [[r rt] [Heq Hin]]%list_elem_of_fmap).
  rewrite merge_sort_Permutation in Hin. apply join_rooms_elem in Hin as (Hr & _).
  injection Heq as -> _ _ ->. by exists r.
Qed.

Lemma listing_reply where_eq w d rooms :
  reply (get_room_availability where_eq w d) = (List rooms, 200) →
  rooms = room_dict <$> merge_sort by_RoomNumber (join_rooms (rows_of d)).
Proof.
  run_handler. destruct (connect_error w); cbn; [discriminate|].
  destruct (stmt_fault w SELECT_Rooms); cbn; congruence.
Qed.

Lemma listing_shows_room where_eq w d rooms n st :
  reply (get_room_availability where_eq w d) = (List rooms, 200) →
  shows rooms n st →
  ∃ rm, rm ∈ Room (rows_of d) ∧ RoomNumber rm = n ∧ Status rm = st.
Proof. intros ->%listing_reply. apply listed_room. Qed.

(** * CreateBooking *)

(** X13. [add_booking] answers 201 exactly when the connection opens and
    neither of its statements nor the commit raises: no other condition,
    such as the room being free or existing, enters. *)
Lemma add_booking_succeeds_iff where_eq w data d :
  (reply (add_booking where_eq w data d)).2 = 201 ↔
  connect_error w = None ∧
  raises (stmt_fault w (insert_of data)) = None ∧
  raises (stmt_fault w (occupy_of data)) = None ∧
  commit_error w = None.
Proof.
  add_cases w;
    first [done | split; [done | intros (? & ? & ? & ?); done]].
Qed.

(** C1. When the connection opens and the Booking insert or the Room status
    update raises a database error, [add_booking] leaves all four relations
    as they were (no Booking row is added, even when the failing statement
    had already been applied inside the transaction) and makes no further
    attempt: the failing statement is executed once and is followed only by
    the rollback and the release of cursor and connection.  The caller gets
    an error answer: 400 with the raised error as details when the rollback
    goes through, and Flask's own 500 when the rollback raises as well, the
    except block having no guard around it. *)
Theorem add_booking_failure_rolls_back where_eq w data d :
  connect_error w = None →
  raises (stmt_fault w (insert_of data)) ≠ None ∨
  raises (stmt_fault w (occupy_of data)) ≠ None →
  let r := add_booking where_eq w data d in
  rows_of (final r) = rows_of d ∧
  ∃ err,
    ((raises (stmt_fault w (insert_of data)) = Some err ∧
      calls r = [Connect; Execute (insert_of data);
                 Rollback; CursorClose; ConnClose]) ∨
     (raises (stmt_fault w (insert_of data)) = None ∧
      raises (stmt_fault w (occupy_of data)) = Some err ∧
      calls r = [Connect; Execute (insert_of data); Execute (occupy_of data);
                 Rollback; CursorClose; ConnClose])) ∧
    match rollback_error w with
    | None => reply r = (Dict [("error", PStr "Failed to process booking");
                               ("details", PStr err)], 400)
    | Some _ => reply r = (ErrorPage, 500)
    end.
Proof.
  intros Hc Hf r. subst r. add_cases w; try discriminate;
    try (destruct Hf; congruence);
    (split; [done|]; eexists; split; [|done]; first [by left | by right]).
Qed.

Lemma add_booking_failure_rolls_back_example :
  (connect_error update_fails = None ∧
   raises (stmt_fault update_fails (occupy_of lee_request)) ≠ None ∧
   rows_of (final (add_booking exact_int update_fails lee_request hotel))
     = rows_of hotel) ∧
  (connect_error connection_lost = None ∧
   raises (stmt_fault connection_lost (occupy_of lee_request)) ≠ None ∧
   rows_of (final (add_booking exact_int connection_lost lee_request hotel))
     = rows_of hotel).
Proof.
  split.
  - split; [reflexivity|]. split; [discriminate|].
    apply (add_booking_failure_rolls_back exact_int update_fails lee_request hotel).
    + reflexivity.
    + right. discriminate.
  - split; [reflexivity|]. split; [discriminate|].
    apply (add_booking_failure_rolls_back exact_int connection_lost lee_request hotel).
    + reflexivity.
    + right. discriminate.
Defined.

(** C2. Every [add_booking] call that answers 201 has appended to Booking
    one row carrying the request's customerId, roomNumber, dates and cost,
    the generated BookingID and BookingDate = NOW(); every Room row the
    engine matches with the given roomNumber has Status Occupied; the body
    is the success message with that BookingID; and any room listing taken
    from the resulting database shows Occupied for that room number. *)
Theorem add_booking_success where_eq w data d :
  let r := add_booking where_eq w data d in
  (reply r).2 = 201 →
  reply r = (Dict [("message", PStr "Booking successful");
                   ("bookingId", PInt (auto_increment d))], 201) ∧
  Booking (rows_of (final r)) = Booking (rows_of d) ++ [new_booking (now w) data d] ∧
  (∀ rm, rm ∈ Room (rows_of (final r)) →
         where_eq (RoomNumber rm) (get data "roomNumber") = true →
         Status rm = "Occupied") ∧
  (∀ w' rooms n st,
     reply (get_room_availability where_eq w' (final r)) = (List rooms, 200) →
     shows rooms n st →
     where_eq n (get data "roomNumber") = true →
     st = "Occupied").
Proof.
  intros r Hok.
  assert (reply r = (Dict [("message", PStr "Booking successful");
                           ("bookingId", PInt (auto_increment d))], 201) ∧
          rows_of (final r) =
            with_Room (with_Booking (rows_of d)
                         (Booking (rows_of d) ++ [new_booking (now w) data d]))
              (update_status where_eq "Occupied" (get data "roomNumber")
                 (Room (rows_of d)))) as [Hr Hd].
  { subst r. add_cases w; first [discriminate | done]. }
  assert (∀ rm, rm ∈ Room (rows_of (final r)) →
            where_eq (RoomNumber rm) (get data "roomNumber") = true →
            Status rm = "Occupied") as Hocc.
  { rewrite Hd. cbn. intros rm. apply update_status_matching. }
  split; [done|]. split; [by rewrite Hd|]. split; [done|].
  intros w' rooms n st Hl Hs Hm.
  destruct (listing_shows_room _ _ _ _ _ _ Hl Hs) as (rm & Hin & <- & <-).
  by apply Hocc.
Qed.

Lemma add_booking_success_example :
  (reply (add_booking exact_int quiet lee_request hotel)).2 = 201 ∧
  reply (add_booking exact_int quiet lee_request hotel)
    = (Dict [("message", PStr "Booking successful"); ("bookingId", PInt 1)], 201) ∧
  ∃ rooms,
    reply (get_room_availability exact_int quiet
             (final (add_booking exact_int quiet lee_request hotel)))
      = (List rooms, 200) ∧
    shows rooms 101 "Occupied" ∧
    ∀ st, shows rooms 101 st → st = "Occupied".
Proof.
  split; [reflexivity|].
  destruct (add_booking_success exact_int quiet lee_request hotel eq_refl)
    as (Hr & _ & _ & Hlist).
  split; [exact Hr|].
  eexists. split; [reflexivity|]. split.
  - exists (PStr "Single"), (POther "120.00"). left.
  - intros st Hst.
    exact (Hlist quiet _ 101 st eq_refl Hst eq_refl).
Defined.

(** C6. [add_booking] does not look at the room's current status: with the
    connection open and no statement or commit raising, a request for a
    room that is already Occupied is answered 201 and its Booking row is
    inserted all the same, the room staying Occupied. *)
Theorem add_booking_into_occupied_room where_eq w data d rm :
  connect_error w = None →
  raises (stmt_fault w (insert_of data)) = None →
  raises (stmt_fault w (occupy_of data)) = None →
  commit_error w = None →
  rm ∈ Room (rows_of d) →
  where_eq (RoomNumber rm) (get data "roomNumber") = true →
  Status rm = "Occupied" →
  let r := add_booking where_eq w data d in
  reply r = (Dict [("message", PStr "Booking successful");
                   ("bookingId", PInt (auto_increment d))], 201) ∧
  Booking (rows_of (final r)) = Booking (rows_of d) ++ [new_booking (now w) data d] ∧
  rm ∈ Room (rows_of (final r)).
Proof.
  intros Hc Hi Hu Hk Hrm Hm Hst r. subst r. run_handler. rewrite Hc, Hk. cbn.
  destruct (stmt_fault w (INSERT_Booking _ _ _ _ _)); cbn in *; [|discriminate..].
  destruct (stmt_fault w (UPDATE_Room_Status _ _)); cbn in *; [|discriminate..].
  split; [done|]. split; [done|].
  unfold update_status. apply list_elem_of_fmap. exists rm. split; [|done].
  rewrite Hm. destruct rm as [n ty st]. cbn in *. by subst st.
Qed.

Lemma add_booking_into_occupied_room_example :
  {| RoomNumber := 101; RoomTypeID := 1; Status := "Occupied" |}
    ∈ Room (rows_of booked) ∧
  reply (add_booking exact_int quiet kim_request booked)
    = (Dict [("message", PStr "Booking successful"); ("bookingId", PInt 2)], 201) ∧
  length (Booking (rows_of (final (add_booking exact_int quiet kim_request booked))))
    = 2%nat.
Proof.
  assert ({| RoomNumber := 101; RoomTypeID := 1; Status := "Occupied" |}
            ∈ Room (rows_of booked)) as Hrm.
  { vm_compute. right. left. }
  split; [exact Hrm|].
  destruct (add_booking_into_occupied_room exact_int quiet kim_request booked
              _ eq_refl eq_refl eq_refl eq_refl Hrm eq_refl eq_refl)
    as (Hr & Hb & _).
  split; [exact Hr|]. rewrite Hb. reflexivity.
Defined.

(** * CancelBooking *)

(** What a [cancel_booking] call that answers 200 has done. *)
Lemma cancel_booking_ok where_eq w booking_id d :
  let r := cancel_booking where_eq w booking_id d in
  (reply r).2 = 200 →
  ∃ b, find_booking booking_id d = Some b ∧
    reply r = (Dict [("message",
                 PStr (cancelled_message booking_id (bk_RoomNumber b)))], 200) ∧
    rows_of (final r) =
      with_Room
        (with_Booking (rows_of d)
           (filter (λ b, BookingID b ≠ booking_id) (Booking (rows_of d))))
        (update_status where_eq "Vacant" (bk_RoomNumber b) (Room (rows_of d))) ∧
    calls r = [Connect; Execute (SELECT_Booking_RoomNumber booking_id);
               Execute (DELETE_Booking booking_id);
               Execute (UPDATE_Room_Status "Vacant" (bk_RoomNumber b));
               Commit; CursorClose; ConnClose].
Proof.
  intros r Hok. subst r. cancel_cases w d; try discriminate.
  all: by exists b.
Qed.

(** X14. [cancel_booking] answers 200 exactly when the connection opens,
    the lookup finds a Booking row, and none of the three statements nor the
    commit raises. *)
Lemma cancel_booking_succeeds_iff where_eq w booking_id d :
  (reply (cancel_booking where_eq w booking_id d)).2 = 200 ↔
  connect_error w = None ∧
  raises (stmt_fault w (SELECT_Booking_RoomNumber booking_id)) = None ∧
  ∃ b, find_booking booking_id d = Some b ∧
    raises (stmt_fault w (DELETE_Booking booking_id)) = None ∧
    raises (stmt_fault w (UPDATE_Room_Status "Vacant" (bk_RoomNumber b))) = None ∧
    commit_error w = None.
Proof.
  cancel_cases w d;
    first [ done
          | split; [done | intros (? & ? & ? & ? & ? & ? & ?); done]
          | split; [done | intros (? & ? & ? & [= <-] & ? & Hu & ?);
                           rewrite Eu in Hu; done]
          | split; [|done]; intros _; split; [done|]; split; [done|];
            exists b; by rewrite Eu ].
Qed.

(** C3. Every [cancel_booking] call that answers 200 found a Booking row
    with the given BookingID; afterwards no Booking row has that BookingID
    while every other Booking row is kept; every Room row the engine
    matches with that booking's RoomNumber has Status Vacant; the message
    names the BookingID and that RoomNumber; and any room listing taken
    from the resulting database shows Vacant for that room number. *)
Theorem cancel_booking_success where_eq w booking_id d :
  let r := cancel_booking where_eq w booking_id d in
  (reply r).2 = 200 →
  ∃ b, find_booking booking_id d = Some b ∧
    b ∈ Booking (rows_of d) ∧ BookingID b = booking_id ∧
    (∀ b', b' ∈ Booking (rows_of (final r)) ↔
           b' ∈ Booking (rows_of d) ∧ BookingID b' ≠ booking_id) ∧
    (∀ rm, rm ∈ Room (rows_of (final r)) →
           where_eq (RoomNumber rm) (bk_RoomNumber b) = true →
           Status rm = "Vacant") ∧
    reply r = (Dict [("message",
                 PStr ("Booking " +:+ pretty booking_id +:+
                       " cancelled successfully. Room " +:+
                       py_str (bk_RoomNumber b) +:+ " is now Vacant."))], 200) ∧
    (∀ w' rooms n st,
       reply (get_room_availability where_eq w' (final r)) = (List rooms, 200) →
       shows rooms n st →
       where_eq n (bk_RoomNumber b) = true →
       st = "Vacant").
Proof.
  intros r Hok.
  destruct (cancel_booking_ok where_eq w booking_id d Hok)
    as (b & Hb & Hr & Hd & _).
  subst r.
  assert (b ∈ Booking (rows_of d) ∧ BookingID b = booking_id) as [Hin Hid].
  { unfold find_booking in Hb. apply head_Some_elem_of in Hb.
    by apply list_elem_of_filter in Hb as [? ?]. }
  assert (∀ rm, rm ∈ Room (rows_of (final (cancel_booking where_eq w booking_id d))) →
            where_eq (RoomNumber rm) (bk_RoomNumber b) = true →
            Status rm = "Vacant") as Hvac.
  { rewrite Hd. cbn. intros rm. apply update_status_matching. }
  exists b. split; [done|]. split; [done|]. split; [done|]. split.
  { intros b'. rewrite Hd. cbn. rewrite list_elem_of_filter. tauto. }
  split; [done|]. split; [exact Hr|].
  intros w' rooms n st Hl Hs Hm.
  destruct (listing_shows_room _ _ _ _ _ _ Hl Hs) as (rm & Hrm & <- & <-).
  by apply Hvac.
Qed.

Lemma cancel_booking_success_example :
  (reply (cancel_booking exact_int quiet 1 booked)).2 = 200 ∧
  Booking (rows_of (final (cancel_booking exact_int quiet 1 booked))) = [] ∧
  ∃ b, find_booking 1 booked = Some b ∧
       bk_RoomNumber b = PInt 101 ∧
       reply (cancel_booking exact_int quiet 1 booked)
         = (Dict [("message",
              PStr ("Booking " +:+ pretty 1 +:+
                    " cancelled successfully. Room " +:+
                    py_str (bk_RoomNumber b) +:+ " is now Vacant."))], 200) ∧
       ∀ rooms st,
         reply (get_room_availability exact_int quiet
                  (final (cancel_booking exact_int quiet 1 booked)))
           = (List rooms, 200) →
         shows rooms 101 st → st = "Vacant".
Proof.
  split; [reflexivity|]. split; [reflexivity|].
  destruct (cancel_booking_success exact_int quiet 1 booked eq_refl)
    as (b & Hb & _ & _ & _ & _ & Hr & Hlist).
  exists b. split; [exact Hb|].
  assert (bk_RoomNumber b = PInt 101) as Hroom.
  { injection Hb as <-. reflexivity. }
  split; [exact Hroom|]. split; [exact Hr|].
  intros rooms st Hl Hst. apply (Hlist quiet rooms 101 st Hl Hst).
  rewrite Hroom. reflexivity.
Defined.

(** C4. When no Booking row has the given BookingID, [cancel_booking]
    leaves the database exactly as it was, whatever the engine does; and
    once the connection is open and the lookup does not raise, it answers
    404 "Booking not found" having executed the lookup only: no DELETE,
    no UPDATE and no commit is issued. *)
Theorem cancel_booking_not_found where_eq w booking_id d :
  (∀ b, b ∈ Booking (rows_of d) → BookingID b ≠ booking_id) →
  let r := cancel_booking where_eq w booking_id d in
  final r = d ∧
  (connect_error w = None →
   raises (stmt_fault w (SELECT_Booking_RoomNumber booking_id)) = None →
   reply r = (Dict [("error", PStr "Booking not found")], 404) ∧
   calls r = [Connect; Execute (SELECT_Booking_RoomNumber booking_id);
              CursorClose; ConnClose]).
Proof.
  intros Hnone r. subst r.
  assert (filter (λ b, BookingID b = booking_id) (Booking (rows_of d)) = [])
    as Hf.
  { destruct (filter _ _) as [|b bs] eqn:E; [done|].
    assert (b ∈ filter (λ b, BookingID b = booking_id) (Booking (rows_of d)))
      as [Hid Hb]%list_elem_of_filter by (rewrite E; left).
    by destruct (Hnone b Hb). }
  cancel_cases w d; try discriminate; destruct d; by split.
Qed.

Lemma cancel_booking_not_found_example :
  (∀ b, b ∈ Booking (rows_of hotel) → BookingID b ≠ 1) ∧
  final (cancel_booking exact_int quiet 1 hotel) = hotel.
Proof.
  assert (∀ b, b ∈ Booking (rows_of hotel) → BookingID b ≠ 1) as H.
  { intros b Hb. cbn in Hb. by apply not_elem_of_nil in Hb. }
  split; [exact H|].
  apply (cancel_booking_not_found exact_int quiet 1 hotel H).
Defined.

(** C7. A [cancel_booking] call that answers 200 sets Status Vacant on every
    Room row matching the cancelled booking's RoomNumber without looking at
    the other bookings: a Booking row with another BookingID that refers to
    the same RoomNumber is still there afterwards, and the room is Vacant
    all the same. *)
Theorem cancel_booking_vacates_shared_room where_eq w booking_id d b :
  let r := cancel_booking where_eq w booking_id d in
  (reply r).2 = 200 →
  find_booking booking_id d = Some b →
  (∀ rm, rm ∈ Room (rows_of (final r)) →
         where_eq (RoomNumber rm) (bk_RoomNumber b) = true →
         Status rm = "Vacant") ∧
  (∀ other, other ∈ Booking (rows_of d) →
            BookingID other ≠ booking_id →
            bk_RoomNumber other = bk_RoomNumber b →
            other ∈ Booking (rows_of (final r)) ∧
            ∀ rm, rm ∈ Room (rows_of (final r)) →
                  where_eq (RoomNumber rm) (bk_RoomNumber other) = true →
                  Status rm = "Vacant").
Proof.
  intros r Hok Hb.
  destruct (cancel_booking_ok where_eq w booking_id d Hok)
    as (b0 & Hb0 & _ & Hd & _).
  subst r. rewrite Hb in Hb0. injection Hb0 as <-.
  assert (∀ rm, rm ∈ Room (rows_of (final (cancel_booking where_eq w booking_id d))) →
            where_eq (RoomNumber rm) (bk_RoomNumber b) = true →
            Status rm = "Vacant") as Hvac.
  { rewrite Hd. cbn. intros rm. apply update_status_matching. }
  split; [done|]. intros other Hin Hid Hsame. split.
  - rewrite Hd. cbn. by apply list_elem_of_filter.
  - rewrite Hsame. done.
Qed.

Lemma cancel_booking_vacates_shared_room_example :
  (reply (cancel_booking exact_int quiet 1 double_booked)).2 = 200 ∧
  new_booking (now quiet) kim_request booked
    ∈ Booking (rows_of (final (cancel_booking exact_int quiet 1 double_booked))) ∧
  ∀ rm, rm ∈ Room (rows_of (final (cancel_booking exact_int quiet 1 double_booked))) →
        exact_int (RoomNumber rm) (PInt 101) = true →
        Status rm = "Vacant".
Proof.
  split; [reflexivity|].
  destruct (cancel_booking_vacates_shared_room exact_int quiet 1 double_booked
              (new_booking (now quiet) lee_request hotel) eq_refl eq_refl)
    as (_ & Hother).
  apply (Hother (new_booking (now quiet) kim_request booked)).
  - vm_compute. right. left.
  - vm_compute. discriminate.
  - reflexivity.
Defined.

(** * ListRoomAvailability *)

#[global] Instance by_RoomNumber_total : Total by_RoomNumber.
Proof. intros p q. unfold by_RoomNumber. lia. Qed.

#[global] Instance by_RoomNumber_trans : Transitive by_RoomNumber.
Proof. intros p q r. unfold by_RoomNumber. lia. Qed.

(** Filtering a relation on the key of one of its rows returns that row. *)
Lemma filter_key {A} (key : A → Z) (l : list A) (x : A) :
  NoDup (key <$> l) → x ∈ l → filter (λ y, key y = key x) l = [x].
Proof.
  induction l as [|a l IH]; intros Hnd Hin; [by apply elem_of_nil in Hin|].
  rewrite fmap_cons in Hnd. apply NoDup_cons in Hnd as [Ha Hnd].
  apply elem_of_cons in Hin as [->|Hin].
  - rewrite filter_cons_True by done. f_equal.
    destruct (filter _ l) as [|y ys] eqn:E; [done|].
    assert (y ∈ filter (λ y, key y = key a) l) as [Hy Hyl]%list_elem_of_filter
      by (rewrite E; left).
    destruct Ha. rewrite <- Hy. apply list_elem_of_fmap. by exists y.
  - rewrite filter_cons_False; [by apply IH|].
    intros Heq. destruct Ha. rewrite Heq. apply list_elem_of_fmap. by exists x.
Qed.

(** Under the key and reference constraints the join keeps every Room row
    once, in the order of the relation. *)
Lemma join_rooms_rooms t : roomtype_keys t → (join_rooms t).*1 = Room t.
Proof.
  intros [Hnd Href]. unfold join_rooms. revert Href.
  generalize (Room t) as rs.
  induction rs as [|r rs IH]; intros Href; [done|].
  cbn. rewrite fmap_app. rewrite IH by (intros r' Hr'; apply Href; by right).
  assert (RoomTypeID r ∈ rt_RoomTypeID <$> RoomType t) as Hr
    by (apply Href; left).
  apply list_elem_of_fmap in Hr as (rt & Hid & Hrt).
  rewrite Hid, (filter_key rt_RoomTypeID (RoomType t) rt Hnd Hrt). done.
Qed.

(** C5. When the connection opens and the query does not raise,
    [get_room_availability] answers 200 with one entry holding RoomNumber,
    RoomType (the type's name), Rate and Status for each pair of a Room row
    and a RoomType row with the same RoomTypeID, the room numbers of the
    entries going up from first to last; under the data model's key and
    reference constraints on RoomTypeID these are exactly the Room rows,
    one entry each; and with no Room rows the answer is the empty list,
    still with status 200. *)
Theorem get_room_availability_ordered where_eq w d :
  connect_error w = None →
  raises (stmt_fault w SELECT_Rooms) = None →
  ∃ joined : list (room_row * roomtype_row),
    reply (get_room_availability where_eq w d)
      = (List ((λ p, [("RoomNumber", PInt (RoomNumber p.1));
                      ("RoomType", PStr (TypeName p.2));
                      ("Rate", Rate p.2);
                      ("Status", PStr (Status p.1))]) <$> joined), 200) ∧
    StronglySorted Z.le ((λ p, RoomNumber p.1) <$> joined) ∧
    joined ≡ₚ join_rooms (rows_of d) ∧
    (∀ r rt, (r, rt) ∈ joined ↔
             r ∈ Room (rows_of d) ∧ rt ∈ RoomType (rows_of d) ∧
             rt_RoomTypeID rt = RoomTypeID r) ∧
    (roomtype_keys (rows_of d) → joined.*1 ≡ₚ Room (rows_of d)) ∧
    (Room (rows_of d) = [] →
     reply (get_room_availability where_eq w d) = (List [], 200)).
Proof.
  intros Hc Hf.
  assert (reply (get_room_availability where_eq w d)
            = (List (room_dict <$> merge_sort by_RoomNumber
                                     (join_rooms (rows_of d))), 200)) as Hr.
  { run_handler. rewrite Hc. cbn.
    destruct (stmt_fault w SELECT_Rooms); cbn in *; [done|discriminate..]. }
  exists (merge_sort by_RoomNumber (join_rooms (rows_of d))).
  split; [|split; [|split; [|split; [|split]]]].
  - exact Hr.
  - apply (StronglySorted_fmap _ by_RoomNumber); [by intros p q|].
    apply StronglySorted_merge_sort; apply _.
  - apply merge_sort_Permutation.
  - intros r rt. rewrite merge_sort_Permutation. apply join_rooms_elem.
  - intros Hkeys. rewrite merge_sort_Permutation.
    by rewrite join_rooms_rooms.
  - intros Hnil. rewrite Hr. unfold join_rooms. rewrite Hnil. reflexivity.
Qed.

Lemma hotel_keys : roomtype_keys (rows_of hotel).
Proof.
  split.
  - cbn. apply NoDup_cons. split; [|apply NoDup_singleton].
    intros [=]%list_elem_of_singleton.
  - intros r Hr. cbn in *.
    apply elem_of_cons in Hr as [->|Hr]; cbn; [right; left|].
    apply list_elem_of_singleton in Hr as ->. cbn. left.
Defined.

Lemma get_room_availability_ordered_example :
  connect_error quiet = None ∧
  raises (stmt_fault quiet SELECT_Rooms) = None ∧
  reply (get_room_availability exact_int quiet hotel)
    = (List [[("RoomNumber", PInt 101); ("RoomType", PStr "Single");
              ("Rate", POther "120.00"); ("Status", PStr "Vacant")];
             [("RoomNumber", PInt 102); ("RoomType", PStr "Double");
              ("Rate", POther "180.00"); ("Status", PStr "Vacant")]], 200) ∧
  ∃ joined,
    reply (get_room_availability exact_int quiet hotel)
      = (List ((λ p, [("RoomNumber", PInt (RoomNumber p.1));
                      ("RoomType", PStr (TypeName p.2));
                      ("Rate", Rate p.2);
                      ("Status", PStr (Status p.1))]) <$> joined), 200) ∧
    StronglySorted Z.le ((λ p, RoomNumber p.1) <$> joined) ∧
    joined.*1 ≡ₚ Room (rows_of hotel).
Proof.
  split; [reflexivity|]. split; [reflexivity|]. split; [reflexivity|].
  destruct (get_room_availability_ordered exact_int quiet hotel eq_refl eq_refl)
    as (joined & Hr & Hs & _ & _ & Hrooms & _).
  exists joined. split; [exact Hr|]. split; [exact Hs|].
  exact (Hrooms hotel_keys).
Defined.

(** C9. [get_room_availability] never changes the database: whatever the
    engine does, the committed database after the call is the one before
    it, the only statement executed is the SELECT, and nothing is
    committed. *)
Theorem get_room_availability_read_only where_eq w d :
  let r := get_room_availability where_eq w d in
  final r = d ∧
  (∀ s, Execute s ∈ calls r → s = SELECT_Rooms) ∧
  Commit ∉ calls r.
Proof.
  intros r. subst r. run_handler. destruct d as [t n].
  destruct (connect_error w); cbn.
  - split; [done|]. split; [intros ?|]; list_mem.
  - destruct (stmt_fault w SELECT_Rooms); cbn;
      (split; [done|]; split; [intros ?|]; list_mem).
Qed.

(** * The guestName field *)

Lemma get_delete_ne (data : gmap string pyval) (k key : string) :
  k ≠ key → get (delete k data) key = get data key.
Proof. intros Hne. unfold get. by rewrite lookup_delete_ne. Qed.

(** C10. Two request bodies that agree on every key other than guestName
    give the same [add_booking] run on the same database and world: the
    same committed database, the same response and the same driver
    calls. *)
Theorem add_booking_ignores_guestName where_eq w (data1 data2 : gmap string pyval) d :
  delete "guestName" data1 = delete "guestName" data2 →
  add_booking where_eq w data1 d = add_booking where_eq w data2 d.
Proof.
  intros Heq.
  assert (∀ key, "guestName" ≠ key → get data1 key = get data2 key) as Hget.
  { intros key Hne.
    rewrite <- (get_delete_ne data1 "guestName" key Hne).
    rewrite <- (get_delete_ne data2 "guestName" key Hne).
    by rewrite Heq. }
  unfold add_booking.
  rewrite (Hget "roomNumber"), (Hget "checkInDate"), (Hget "checkOutDate"),
    (Hget "totalCost"), (Hget "customerId") by discriminate.
  reflexivity.
Qed.

Lemma add_booking_ignores_guestName_example :
  get lee_request "guestName" ≠ get kim_request "guestName" ∧
  delete "guestName" lee_request = delete "guestName" kim_request ∧
  add_booking exact_int quiet lee_request hotel
    = add_booking exact_int quiet kim_request hotel.
Proof.
  assert (delete "guestName" lee_request = delete "guestName" kim_request) as H
    by (vm_compute; reflexivity).
  split; [discriminate|]. split; [exact H|].
  exact (add_booking_ignores_guestName exact_int quiet lee_request kim_request hotel H).
Defined.

(** * Relations the handlers never write *)

Lemma update_status_numbers where_eq status p rs :
  RoomNumber <$> update_status where_eq status p rs = RoomNumber <$> rs.
Proof.
  unfold update_status. rewrite <- list_fmap_compose. apply list_fmap_ext.
  intros _ r _. cbn. destruct (where_eq (RoomNumber r) p); reflexivity.
Qed.

(** X15. RoomType and Customer are never written by [add_booking] and
    [cancel_booking], and the status updates neither add nor remove rooms:
    in every world both relations and the sequence of room numbers are
    after the call what they were before. *)
Lemma catalogue_kept where_eq w data booking_id d :
  let kept (r : result) :=
    RoomType (rows_of (final r)) = RoomType (rows_of d) ∧
    Customer (rows_of (final r)) = Customer (rows_of d) ∧
    RoomNumber <$> Room (rows_of (final r)) = RoomNumber <$> Room (rows_of d) in
  kept (add_booking where_eq w data d) ∧
  kept (cancel_booking where_eq w booking_id d).
Proof.
  intros kept. subst kept. cbn beta. split.
  - add_cases w;
      (split; [done|split; [done|]]; first [done | apply update_status_numbers]).
  - cancel_cases w d;
      (split; [done|split; [done|]]; first [done | apply update_status_numbers]).
Qed.

(** * Error taxonomy *)

(** Which of the explicitly listed driver calls a membership hypothesis
    refers to. *)
Ltac which_call H :=
  rewrite ?elem_of_cons, ?elem_of_nil in H; destruct_or? H;
  try discriminate H; try contradiction.

Ltac distinct_calls :=
  repeat (apply NoDup_cons; split; [list_mem|]); apply NoDup_nil_2.

(** C8, as the claim states it, fails: the room status update raises while
    the connection is lost, the rollback in the except block raises as
    well, and the write failure is answered 500 by Flask, not 400 with the
    database error; the Booking row inserted before is not kept. *)
Lemma write_failure_answered_500 :
  raises (stmt_fault connection_lost (occupy_of lee_request))
    = Some "2013 (HY000): Lost connection to MySQL server during query" ∧
  reply (add_booking exact_int connection_lost lee_request hotel)
    = (ErrorPage, 500) ∧
  (reply (add_booking exact_int connection_lost lee_request hotel)).2 ≠ 400 ∧
  rows_of (final (add_booking exact_int connection_lost lee_request hotel))
    = rows_of hotel.
Proof.
  split; [reflexivity|]. split; [reflexivity|].
  split; [discriminate|reflexivity].
Qed.

(** C8, amended.  When the connection cannot be opened, each of the three
    handlers answers 500 "Database connection failed", leaves the database
    as it was and makes no further call.  When the connection is open and a
    statement of [add_booking] or [cancel_booking], or their commit, raises,
    the handler calls rollback once and the four relations are as they
    were; the answer is 400 with the raised error text as details when the
    rollback goes through, and Flask's 500 when the rollback raises too.
    No call is repeated: the connection is opened once and no statement is
    executed twice. *)
Theorem errors_classified where_eq w data booking_id d :
  let a := add_booking where_eq w data d in
  let l := get_room_availability where_eq w d in
  let c := cancel_booking where_eq w booking_id d in
  let unreachable := (Dict [("error", PStr "Database connection failed")], 500) in
  let answered (r : result) (message err : string) :=
    rows_of (final r) = rows_of d ∧
    Rollback ∈ calls r ∧
    match rollback_error w with
    | None => reply r = (Dict [("error", PStr message); ("details", PStr err)], 400)
    | Some _ => reply r = (ErrorPage, 500)
    end in
  (connect_error w ≠ None →
     (reply a = unreachable ∧ final a = d ∧ calls a = [Connect]) ∧
     (reply l = unreachable ∧ final l = d ∧ calls l = [Connect]) ∧
     (reply c = unreachable ∧ final c = d ∧ calls c = [Connect])) ∧
  (connect_error w = None →
   ∀ err, add_booking_raised w data = Some err →
          answered a "Failed to process booking" err) ∧
  (connect_error w = None →
   ∀ err, cancel_booking_raised w booking_id d = Some err →
          answered c "Failed to cancel booking" err) ∧
  NoDup (calls a) ∧ NoDup (calls l) ∧ NoDup (calls c).
Proof.
  intros a l c unreachable answered. subst a l c unreachable answered. cbn beta.
  split; [|split; [|split; [|split; [|split]]]].
  - intros Hc. run_handler. destruct (connect_error w); [done|by destruct Hc].
  - intros Hc err Hraised. unfold add_booking_raised in Hraised.
    add_cases w; try discriminate;
      (injection Hraised as ->; split; [done|]; split; [list_mem|done]).
  - intros Hc err Hraised. unfold cancel_booking_raised in Hraised.
    cancel_cases w d; try discriminate;
      (injection Hraised as ->; split; [done|]; split; [list_mem|done]).
  - add_cases w; distinct_calls.
  - run_handler. destruct (connect_error w); cbn; [distinct_calls|].
    destruct (stmt_fault w SELECT_Rooms); cbn; distinct_calls.
  - cancel_cases w d; distinct_calls.
Qed.

Lemma errors_classified_example :
  (reply (cancel_booking exact_int offline 1 booked)
     = (Dict [("error", PStr "Database connection failed")], 500)) ∧
  (add_booking_raised update_fails lee_request
     = Some "1205 (HY000): Lock wait timeout exceeded" ∧
   reply (add_booking exact_int update_fails lee_request hotel)
     = (Dict [("error", PStr "Failed to process booking");
              ("details", PStr "1205 (HY000): Lock wait timeout exceeded")], 400) ∧
   rows_of (final (add_booking exact_int update_fails lee_request hotel))
     = rows_of hotel) ∧
  (cancel_booking_raised connection_lost 1 booked
     = Some "2013 (HY000): Lost connection to MySQL server during query" ∧
   reply (cancel_booking exact_int connection_lost 1 booked) = (ErrorPage, 500) ∧
   rows_of (final (cancel_booking exact_int connection_lost 1 booked))
     = rows_of booked).
Proof.
  split; [|split].
  - destruct (errors_classified exact_int offline lee_request 1 booked)
      as (Hoff & _).
    destruct Hoff as (_ & _ & Hc & _); [discriminate|]. exact Hc.
  - destruct (errors_classified exact_int update_fails lee_request 1 hotel)
      as (_ & Hadd & _).
    destruct (Hadd eq_refl _ eq_refl) as (Hrows & _ & Hreply).
    split; [reflexivity|]. split; [exact Hreply | exact Hrows].
  - destruct (errors_classified exact_int connection_lost lee_request 1 booked)
      as (_ & _ & Hcancel & _).
    destruct (Hcancel eq_refl _ eq_refl) as (Hrows & _ & Hreply).
    split; [reflexivity|]. split; [exact Hreply | exact Hrows].
Defined.

(** * Further properties of the handlers *)

(** The listing is computed from Room and RoomType alone. *)
Lemma listing_of_rows where_eq w d1 d2 :
  Room (rows_of d1) = Room (rows_of d2) →
  RoomType (rows_of d1) = RoomType (rows_of d2) →
  reply (get_room_availability where_eq w d1)
    = reply (get_room_availability where_eq w d2).
Proof.
  intros HR HT. run_handler. destruct (connect_error w); cbn; [done|].
  destruct (stmt_fault w SELECT_Rooms); cbn; [|done..].
  unfold join_rooms. by rewrite HR, HT.
Qed.

(** What an [add_booking] call that answers 201 has written. *)
Lemma add_booking_ok where_eq w data d :
  (reply (add_booking where_eq w data d)).2 = 201 →
  rows_of (final (add_booking where_eq w data d)) =
    with_Room
      (with_Booking (rows_of d)
         (Booking (rows_of d) ++ [new_booking (now w) data d]))
      (update_status where_eq "Occupied" (get data "roomNumber")
         (Room (rows_of d))).
Proof. add_cases w; first [discriminate | done]. Qed.

(** A lookup that finds nothing ends the cancellation with 404. *)
Lemma cancel_booking_lookup_empty where_eq w booking_id d :
  filter (λ b, BookingID b = booking_id) (Booking (rows_of d)) = [] →
  connect_error w = None →
  raises (stmt_fault w (SELECT_Booking_RoomNumber booking_id)) = None →
  reply (cancel_booking where_eq w booking_id d)
    = (Dict [("error", PStr "Booking not found")], 404) ∧
  final (cancel_booking where_eq w booking_id d) = d.
Proof.
  intros Hf Hc Hs. cancel_cases w d; try discriminate; by destruct d.
Qed.

Lemma filter_none {A} (P : A → Prop) `{∀ x, Decision (P x)} (l : list A) :
  (∀ x, x ∈ l → ¬ P x) → filter P l = [].
Proof.
  induction l as [|x l IH]; intros Hno; [done|].
  rewrite filter_cons_False by (apply Hno; left).
  apply IH. intros y Hy. apply Hno. by right.
Qed.

Lemma filter_all {A} (P : A → Prop) `{∀ x, Decision (P x)} (l : list A) :
  (∀ x, x ∈ l → P x) → filter P l = l.
Proof.
  induction l as [|x l IH]; intros Hall; [done|].
  rewrite filter_cons_True by (apply Hall; left).
  f_equal. apply IH. intros y Hy. apply Hall. by right.
Qed.

Lemma set_status_twice s1 s2 r :
  set_status s2 (set_status s1 r) = set_status s2 r.
Proof. reflexivity. Qed.

Lemma update_status_twice where_eq s1 s2 p rs :
  update_status where_eq s2 p (update_status where_eq s1 p rs)
    = update_status where_eq s2 p rs.
Proof.
  unfold update_status. rewrite <- list_fmap_compose. apply list_fmap_ext.
  intros _ r _. cbn. destruct (where_eq (RoomNumber r) p) eqn:E; cbn; by rewrite E.
Qed.

Lemma update_status_same where_eq status p rs :
  (∀ r, r ∈ rs → where_eq (RoomNumber r) p = true → Status r = status) →
  update_status where_eq status p rs = rs.
Proof.
  intros Hst. unfold update_status. rewrite <- (list_fmap_id rs) at 2.
  apply list_fmap_ext. intros i r Hr. cbn.
  destruct (where_eq (RoomNumber r) p) eqn:E; [|done].
  assert (Status r = status) as <-.
  { apply Hst; [|done]. by apply list_elem_of_lookup_2 in Hr. }
  by destruct r.
Qed.

Lemma update_status_steps where_eq status p rs :
  Forall2 (status_step status) rs (update_status where_eq status p rs).
Proof.
  unfold update_status. induction rs as [|r rs IH]; cbn; constructor; [|done].
  unfold status_step. destruct (where_eq (RoomNumber r) p); cbn; auto.
Qed.

Lemma status_step_refl status rs : Forall2 (status_step status) rs rs.
Proof. induction rs; constructor; [|done]. unfold status_step. auto. Qed.

(** X1. When the connection opens and the room query raises,
    [get_room_availability] answers 500 "Failed to fetch rooms" with the
    raised text as details; unlike the two writing handlers it issues no
    rollback, and the database is the one it started from. *)
Theorem get_room_availability_query_error where_eq w d err :
  connect_error w = None →
  raises (stmt_fault w SELECT_Rooms) = Some err →
  let r := get_room_availability where_eq w d in
  reply r = (Dict [("error", PStr "Failed to fetch rooms");
                   ("details", PStr err)], 500) ∧
  final r = d ∧
  calls r = [Connect; Execute SELECT_Rooms; CursorClose; ConnClose].
Proof.
  intros Hc Hs r. subst r. run_handler. rewrite Hc. cbn. destruct d as [t n].
  destruct (stmt_fault w SELECT_Rooms); cbn in *; [discriminate|..];
    injection Hs as ->; done.
Qed.

Lemma get_room_availability_query_error_example :
  connect_error select_fails = None ∧
  raises (stmt_fault select_fails SELECT_Rooms)
    = Some "2013 (HY000): Lost connection to MySQL server during query" ∧
  reply (get_room_availability exact_int select_fails booked)
    = (Dict [("error", PStr "Failed to fetch rooms");
             ("details",
              PStr "2013 (HY000): Lost connection to MySQL server during query")],
       500).
Proof.
  split; [reflexivity|]. split; [reflexivity|].
  apply (get_room_availability_query_error exact_int select_fails booked
           _ eq_refl eq_refl).
Defined.

(** The calls between opening the connection and releasing it. *)
Ltac all_but_release :=
  match goal with
  | |- ∃ body, Connect :: ?l = _ ∧ _ =>
      let body := eval cbn in (take (length l - 2)%nat l) in exists body
  end.

(** X2. Cursor and connection are released on every path: once the
    connection is open, each handler's calls end with closing the cursor and
    then the connection, whatever was returned or raised before, and nothing
    is closed twice; when connecting failed there is nothing to close and no
    further call is made. *)
Theorem connection_always_released where_eq w data booking_id d :
  let released (r : result) :=
    match connect_error w with
    | Some _ => calls r = [Connect]
    | None => ∃ body, calls r = Connect :: (body ++ [CursorClose; ConnClose]) ∧
                      (CursorClose ∉ body) ∧ (ConnClose ∉ body)
    end in
  released (add_booking where_eq w data d) ∧
  released (get_room_availability where_eq w d) ∧
  released (cancel_booking where_eq w booking_id d).
Proof.
  intros released. subst released. cbn beta.
  split; [|split].
  - add_cases w;
      first [done | all_but_release; split; [reflexivity|]; split; list_mem].
  - run_handler. destruct (connect_error w); cbn; [done|].
    destruct (stmt_fault w SELECT_Rooms); cbn;
      (exists [Execute SELECT_Rooms]; split; [reflexivity|]; split; list_mem).
  - cancel_cases w d;
      first [done | all_but_release; split; [reflexivity|]; split; list_mem].
Qed.

(** X3. For a request whose body was parsed to a JSON object, [add_booking]
    writes only when it answers 201: the commit is reached exactly on the
    runs whose connection opened and whose two statements both went
    through, and unless the answer is 201 the four relations are as they
    were, so that a room listing taken afterwards answers as it would have
    before. *)
Theorem add_booking_writes_only_on_201 where_eq w data d :
  let r := add_booking where_eq w data d in
  (Commit ∈ calls r ↔
     connect_error w = None ∧
     raises (stmt_fault w (insert_of data)) = None ∧
     raises (stmt_fault w (occupy_of data)) = None) ∧
  ((reply r).2 ≠ 201 →
     rows_of (final r) = rows_of d ∧
     ∀ w', reply (get_room_availability where_eq w' (final r))
             = reply (get_room_availability where_eq w' d)).
Proof.
  intros r.
  assert ((reply r).2 ≠ 201 → rows_of (final r) = rows_of d) as Hkept.
  { subst r. add_cases w; first [done | intros []; done]. }
  split.
  - subst r. clear Hkept. add_cases w;
      (split; [intros Hin; which_call Hin; done
              |intros (? & ? & ?); first [discriminate | list_mem]]).
  - intros Hne. split; [by apply Hkept|].
    intros w'. apply listing_of_rows; by rewrite Hkept.
Qed.

(** X4. [cancel_booking] answers 200, 400, 404 or 500 and nothing else, and
    unless the answer is 200 the four relations are as they were, so that a
    room listing taken afterwards answers as it would have before. *)
Theorem cancel_booking_writes_only_on_200 where_eq w booking_id d :
  let r := cancel_booking where_eq w booking_id d in
  ((reply r).2 = 200 ∨ (reply r).2 = 400 ∨
   (reply r).2 = 404 ∨ (reply r).2 = 500) ∧
  ((reply r).2 ≠ 200 →
     rows_of (final r) = rows_of d ∧
     ∀ w', reply (get_room_availability where_eq w' (final r))
             = reply (get_room_availability where_eq w' d)).
Proof.
  intros r.
  assert ((reply r).2 ≠ 200 → rows_of (final r) = rows_of d) as Hkept.
  { subst r. cancel_cases w d; first [done | intros []; done]. }
  split.
  - subst r. cancel_cases w d; auto.
  - intros Hne. split; [by apply Hkept|].
    intros w'. apply listing_of_rows; by rewrite Hkept.
Qed.

(** X5. Booking and then cancelling that booking gives the Booking relation
    back, provided the generated BookingID was not already in use; the
    matching Room rows end up Vacant whatever they were before the booking,
    so the four relations are restored exactly when those rooms were Vacant
    to begin with. *)
Theorem book_then_cancel where_eq w1 w2 data d :
  let a := add_booking where_eq w1 data d in
  let c := cancel_booking where_eq w2 (auto_increment d) (final a) in
  (reply a).2 = 201 →
  (reply c).2 = 200 →
  (∀ b, b ∈ Booking (rows_of d) → BookingID b ≠ auto_increment d) →
  Booking (rows_of (final c)) = Booking (rows_of d) ∧
  Room (rows_of (final c))
    = update_status where_eq "Vacant" (get data "roomNumber") (Room (rows_of d)) ∧
  ((∀ rm, rm ∈ Room (rows_of d) →
          where_eq (RoomNumber rm) (get data "roomNumber") = true →
          Status rm = "Vacant") →
   rows_of (final c) = rows_of d).
Proof.
  intros a c Ha Hc Hfresh.
  pose proof (add_booking_ok where_eq w1 data d Ha) as Hrows. fold a in Hrows.
  destruct (cancel_booking_ok where_eq w2 (auto_increment d) (final a) Hc)
    as (b & Hb & _ & Hd & _). fold c in Hd.
  assert (filter (λ b, BookingID b = auto_increment d) (Booking (rows_of d)) = [])
    as Hnone.
  { apply filter_none. intros x Hx Hid. by destruct (Hfresh x Hx). }
  assert (filter (λ b, BookingID b ≠ auto_increment d) (Booking (rows_of d))
            = Booking (rows_of d)) as Hall.
  { by apply filter_all. }
  assert (b = new_booking (now w1) data d) as ->.
  { unfold find_booking in Hb. rewrite Hrows in Hb. cbn in Hb.
    rewrite filter_app, Hnone in Hb. cbn in Hb.
    rewrite decide_True in Hb by done. by injection Hb. }
  assert (Booking (rows_of (final c)) = Booking (rows_of d)) as HB.
  { rewrite Hd, Hrows. cbn. rewrite filter_app, Hall. cbn.
    rewrite decide_False by (intros Hne; by apply Hne).
    by rewrite app_nil_r. }
  assert (Room (rows_of (final c))
            = update_status where_eq "Vacant" (get data "roomNumber")
                (Room (rows_of d))) as HR.
  { rewrite Hd, Hrows. cbn. apply update_status_twice. }
  split; [done|]. split; [done|].
  intros Hvac. rewrite (update_status_same _ _ _ _ Hvac) in HR.
  rewrite Hd in *. rewrite Hrows in *. cbn in *.
  destruct (rows_of d) as [B R T C]. cbn in *. by rewrite HB, HR.
Qed.

Lemma book_then_cancel_example :
  (reply (add_booking exact_int quiet lee_request hotel)).2 = 201 ∧
  (reply (cancel_booking exact_int quiet 1
            (final (add_booking exact_int quiet lee_request hotel)))).2 = 200 ∧
  rows_of (final (cancel_booking exact_int quiet 1
                    (final (add_booking exact_int quiet lee_request hotel))))
    = rows_of hotel.
Proof.
  split; [reflexivity|]. split; [reflexivity|].
  apply (book_then_cancel exact_int quiet quiet lee_request hotel
           eq_refl eq_refl).
  - intros b Hb. cbn in Hb. by apply not_elem_of_nil in Hb.
  - intros rm Hrm Hm. cbn in Hrm.
    apply elem_of_cons in Hrm as [->|Hrm]; [discriminate Hm|].
    apply list_elem_of_singleton in Hrm as ->. reflexivity.
Defined.

(** X6. A booking can be cancelled once: after a [cancel_booking] that
    answered 200, cancelling the same BookingID again (connection open,
    lookup not raising) answers 404 and leaves the database as the first
    cancellation left it. *)
Theorem cancel_twice where_eq w1 w2 booking_id d :
  let c1 := cancel_booking where_eq w1 booking_id d in
  let c2 := cancel_booking where_eq w2 booking_id (final c1) in
  (reply c1).2 = 200 →
  connect_error w2 = None →
  raises (stmt_fault w2 (SELECT_Booking_RoomNumber booking_id)) = None →
  reply c2 = (Dict [("error", PStr "Booking not found")], 404) ∧
  final c2 = final c1.
Proof.
  intros c1 c2 Hok Hc Hs.
  destruct (cancel_booking_ok where_eq w1 booking_id d Hok)
    as (b & _ & _ & Hd & _). fold c1 in Hd.
  apply cancel_booking_lookup_empty; [|done..].
  rewrite Hd. cbn. apply filter_none.
  intros x [Hne _]%list_elem_of_filter Hid. done.
Qed.

Lemma cancel_twice_example :
  (reply (cancel_booking exact_int quiet 1 booked)).2 = 200 ∧
  reply (cancel_booking exact_int quiet 1
           (final (cancel_booking exact_int quiet 1 booked)))
    = (Dict [("error", PStr "Booking not found")], 404).
Proof.
  split; [reflexivity|].
  apply (cancel_twice exact_int quiet quiet 1 booked eq_refl eq_refl eq_refl).
Defined.

(** * What a request body contributes *)

(** X7. [add_booking] reads five keys of the body and nothing else: two
    bodies with the same entries (value or absence) under roomNumber,
    checkInDate, checkOutDate, totalCost and customerId give the same
    database, response and driver calls, whatever other keys they hold. *)
Theorem add_booking_reads_bound_keys where_eq w (data1 data2 : gmap string pyval) d :
  (∀ key, key ∈ bound_keys → data1 !! key = data2 !! key) →
  add_booking where_eq w data1 d = add_booking where_eq w data2 d.
Proof.
  intros Hsame.
  assert (∀ key, key ∈ bound_keys → get data1 key = get data2 key) as Hget.
  { intros key Hkey. unfold get. by rewrite (Hsame key Hkey). }
  unfold add_booking.
  rewrite (Hget "roomNumber"), (Hget "checkInDate"), (Hget "checkOutDate"),
    (Hget "totalCost"), (Hget "customerId")
    by (unfold bound_keys; list_mem).
  reflexivity.
Qed.

Lemma add_booking_reads_bound_keys_example :
  (∀ key, key ∈ bound_keys →
          lee_request !! key = (<["loyaltyTier" := PStr "gold"]> kim_request) !! key) ∧
  add_booking exact_int quiet lee_request hotel
    = add_booking exact_int quiet (<["loyaltyTier" := PStr "gold"]> kim_request) hotel.
Proof.
  assert (∀ key, key ∈ bound_keys →
            lee_request !! key = (<["loyaltyTier" := PStr "gold"]> kim_request) !! key)
    as H.
  { intros key Hkey. unfold bound_keys in Hkey.
    repeat (apply elem_of_cons in Hkey as [->|Hkey]; [vm_compute; reflexivity|]).
    by apply elem_of_nil in Hkey. }
  split; [exact H|].
  exact (add_booking_reads_bound_keys exact_int quiet lee_request _ hotel H).
Defined.

(** X8. A key the body lacks is bound as None, with no validation: adding
    the key with a JSON null changes nothing in the run. *)
Theorem add_booking_absent_key_is_null where_eq w (data : gmap string pyval) d key :
  data !! key = None →
  add_booking where_eq w (<[key := PNone]> data) d = add_booking where_eq w data d.
Proof.
  intros Habsent.
  assert (∀ k, get (<[key := PNone]> data) k = get data k) as Hget.
  { intros k. unfold get. destruct (decide (key = k)) as [<-|Hne].
    - by rewrite lookup_insert_eq, Habsent.
    - by rewrite lookup_insert_ne. }
  unfold add_booking. by rewrite !Hget.
Qed.

Lemma add_booking_absent_key_is_null_example :
  (delete "customerId" lee_request) !! "customerId" = None ∧
  CustomerID <$> Booking (rows_of (final
      (add_booking exact_int quiet (delete "customerId" lee_request) hotel)))
    = [PNone] ∧
  add_booking exact_int quiet
      (<["customerId" := PNone]> (delete "customerId" lee_request)) hotel
    = add_booking exact_int quiet (delete "customerId" lee_request) hotel.
Proof.
  split; [vm_compute; reflexivity|]. split; [vm_compute; reflexivity|].
  apply (add_booking_absent_key_is_null exact_int quiet
           (delete "customerId" lee_request) hotel "customerId").
  vm_compute. reflexivity.
Defined.

(** * What the handlers leave alone *)

(** X9. In every world the writing handlers keep the Room rows in place,
    with their RoomNumber and RoomTypeID; [add_booking] changes a status to
    Occupied or not at all, [cancel_booking] to Vacant or not at all.  So a
    booking never frees a room and a cancellation never occupies one. *)
Theorem rooms_change_status_only where_eq w data booking_id d :
  Forall2 (status_step "Occupied") (Room (rows_of d))
    (Room (rows_of (final (add_booking where_eq w data d)))) ∧
  Forall2 (status_step "Vacant") (Room (rows_of d))
    (Room (rows_of (final (cancel_booking where_eq w booking_id d)))).
Proof.
  split.
  - add_cases w;
      first [apply status_step_refl | apply update_status_steps].
  - cancel_cases w d;
      first [apply status_step_refl | apply update_status_steps].
Qed.

(** X10. In every world [add_booking] keeps the Booking rows it found, in
    order, and adds at most one row after them; [cancel_booking] adds none,
    keeps the order of those it leaves, and leaves every row whose
    BookingID is not the one given. *)
Theorem bookings_kept where_eq w data booking_id d :
  let a := add_booking where_eq w data d in
  let c := cancel_booking where_eq w booking_id d in
  (Booking (rows_of (final a)) = Booking (rows_of d) ∨
   Booking (rows_of (final a))
     = Booking (rows_of d) ++ [new_booking (now w) data d]) ∧
  Booking (rows_of (final c)) `sublist_of` Booking (rows_of d) ∧
  (∀ b, b ∈ Booking (rows_of d) → BookingID b ≠ booking_id →
        b ∈ Booking (rows_of (final c))).
Proof.
  intros a c. subst a c. split; [|split].
  - add_cases w; auto.
  - cancel_cases w d; first [done | apply sublist_filter].
  - intros x Hx Hne. cancel_cases w d;
      first [done | by apply list_elem_of_filter].
Qed.

(** * More on the room listing *)

(** X11. Availability is read from Room.Status and never worked out from
    the bookings: replacing the Booking and Customer relations and the
    AUTO_INCREMENT counter by anything else leaves the answer of
    [get_room_availability] as it is. *)
Theorem listing_ignores_bookings where_eq w d bookings customers n :
  reply (get_room_availability where_eq w
           {| rows_of := {| Booking := bookings; Room := Room (rows_of d);
                            RoomType := RoomType (rows_of d);
                            Customer := customers |};
              auto_increment := n |})
    = reply (get_room_availability where_eq w d).
Proof. by apply listing_of_rows. Qed.

Lemma key_inj {A} (key : A → Z) (l : list A) (x y : A) :
  NoDup (key <$> l) → x ∈ l → y ∈ l → key x = key y → x = y.
Proof.
  induction l as [|a l IH]; intros Hnd Hx Hy Heq; [by apply elem_of_nil in Hx|].
  rewrite fmap_cons in Hnd. apply NoDup_cons in Hnd as [Ha Hnd].
  apply elem_of_cons in Hx as [->|Hx]; apply elem_of_cons in Hy as [->|Hy].
  - done.
  - destruct Ha. rewrite Heq. apply list_elem_of_fmap. by exists y.
  - destruct Ha. rewrite <- Heq. apply list_elem_of_fmap. by exists x.
  - by apply IH.
Qed.

Lemma bind_perm_ext {A B} (f g : A → list B) (l : list A) :
  (∀ x, x ∈ l → f x ≡ₚ g x) → l ≫= f ≡ₚ l ≫= g.
Proof.
  induction l as [|a l IH]; intros Hfg; [done|].
  rewrite !bind_cons. rewrite (Hfg a) by left.
  rewrite IH; [done|]. intros x Hx. apply Hfg. by right.
Qed.

Lemma join_rooms_perm t1 t2 :
  Room t1 ≡ₚ Room t2 → RoomType t1 ≡ₚ RoomType t2 →
  join_rooms t1 ≡ₚ join_rooms t2.
Proof.
  intros HR HT. unfold join_rooms. rewrite HR.
  apply bind_perm_ext. intros r _. by rewrite HT.
Qed.

(** X12. The listing does not depend on the order in which the engine
    holds the rows: when RoomNumber identifies a Room and RoomTypeID a
    RoomType, two databases holding the same Room and RoomType rows in any
    order get the same answer, entry for entry. *)
Theorem listing_order_independent where_eq w d1 d2 :
  Room (rows_of d1) ≡ₚ Room (rows_of d2) →
  RoomType (rows_of d1) ≡ₚ RoomType (rows_of d2) →
  room_keys (rows_of d1) →
  NoDup (rt_RoomTypeID <$> RoomType (rows_of d1)) →
  reply (get_room_availability where_eq w d1)
    = reply (get_room_availability where_eq w d2).
Proof.
  intros HR HT Hrooms Htypes. run_handler.
  destruct (connect_error w); cbn; [done|].
  destruct (stmt_fault w SELECT_Rooms); cbn; [|done..].
  do 3 f_equal.
  apply (StronglySorted_unique_strong by_RoomNumber).
  - intros [r1 rt1] [r2 rt2] H1 H2 Hle Hge.
    rewrite merge_sort_Permutation in H1, H2.
    rewrite <- (join_rooms_perm _ _ HR HT) in H2.
    apply join_rooms_elem in H1 as (Hr1 & Hrt1 & Hid1).
    apply join_rooms_elem in H2 as (Hr2 & Hrt2 & Hid2).
    unfold by_RoomNumber in Hle, Hge. cbn in Hle, Hge.
    assert (r1 = r2) as <-.
    { apply (key_inj RoomNumber (Room (rows_of d1))); [done..|lia]. }
    assert (rt1 = rt2) as <-; [|done].
    apply (key_inj rt_RoomTypeID (RoomType (rows_of d1))); [done..|congruence].
  - apply StronglySorted_merge_sort; apply _.
  - apply StronglySorted_merge_sort; apply _.
  - rewrite !merge_sort_Permutation. by apply join_rooms_perm.
Qed.

Lemma listing_order_independent_example :
  Room (rows_of hotel) ≡ₚ Room (rows_of hotel_reordered) ∧
  RoomType (rows_of hotel) ≡ₚ RoomType (rows_of hotel_reordered) ∧
  Room (rows_of hotel) ≠ Room (rows_of hotel_reordered) ∧
  reply (get_room_availability exact_int quiet hotel)
    = reply (get_room_availability exact_int quiet hotel_reordered).
Proof.
  assert (Room (rows_of hotel) ≡ₚ Room (rows_of hotel_reordered)) as HR
    by apply perm_swap.
  assert (RoomType (rows_of hotel) ≡ₚ RoomType (rows_of hotel_reordered)) as HT
    by apply perm_swap.
  split; [exact HR|]. split; [exact HT|]. split; [discriminate|].
  apply (listing_order_independent exact_int quiet hotel hotel_reordered HR HT).
  - unfold room_keys. cbn. apply NoDup_cons. split; [|apply NoDup_singleton].
    intros [=]%list_elem_of_singleton.
  - cbn. apply NoDup_cons. split; [|apply NoDup_singleton].
    intros [=]%list_elem_of_singleton.
Defined.

(** X16. [get_room_availability] answers 200 or 500 and nothing else; it
    answers 200 exactly when the connection opens and the query does not
    raise, and its body is a list of rooms exactly then. *)
Theorem get_room_availability_succeeds_iff where_eq w d :
  let r := get_room_availability where_eq w d in
  ((reply r).2 = 200 ∨ (reply r).2 = 500) ∧
  ((reply r).2 = 200 ↔
     connect_error w = None ∧ raises (stmt_fault w SELECT_Rooms) = None) ∧
  ((reply r).2 = 200 ↔ ∃ rooms, (reply r).1 = List rooms).
Proof.
  intros r. subst r. run_handler.
  destruct (connect_error w); cbn.
  { split; [by right|]. split; (split; [done|]); [by intros [? _]|by intros [? ?]]. }
  destruct (stmt_fault w SELECT_Rooms); cbn.
  - split; [by left|]. split; [done|]. split; [eauto|done].
  - split; [by right|]. split; (split; [done|]); [by intros [_ ?]|by intros [? ?]].
  - split; [by right|]. split; (split; [done|]); [by intros [_ ?]|by intros [? ?]].
Qed.
